(** * examples/tiling.ipynb: the tiling notebook of xarray-spatial

    The notebook defines four callbacks, hands them to [render_tiles] and
    previews the tiles written.  The callbacks are glue around library calls,
    so the embedding keeps every library call as an event of a small program
    monad: a callback is a program over the events of geopandas,
    spatialpandas and datashader, and its meaning is given for every
    implementation of these libraries. *)

From Stdlib Require Import ZArith List Ascii String Floats DecimalString DecimalPos DecimalZ.
From stdpp Require Import gmap strings list fin_maps.

Local Open Scope Z_scope.
Local Open Scope string_scope.

(** ** Python values and exceptions *)

Inductive exn : Type :=
| KeyError (key : string)
| ValueError
| OverflowError
| LibraryError (what : string).

Inductive outcome (A : Type) : Type :=
| Returns (a : A)
| Raises (e : exn).
Arguments Returns {A} a.
Arguments Raises {A} e.

(** The values a keyword argument of the post-render hook is bound to:
    [None], a [bool], an [int], a [str], or any other object, which is kept
    as what its [__format__] does with the empty format: the text it
    returns or the exception it raises. *)
Inductive pyval : Type :=
| PyNone
| PyBool (b : bool)
| PyInt (n : Z)
| PyStr (s : string)
| PyObject (formatted : outcome string).

(** [str(n)] of an [int]. *)
Definition decimal (n : Z) : string := NilZero.string_of_int (Z.to_int n).

(** [format(v, '')], what a [{}] field of [str.format] prints; it raises
    what the [__format__] of the value raises. *)
Definition py_format (v : pyval) : outcome string :=
  match v with
  | PyNone => Returns "None"
  | PyBool true => Returns "True"
  | PyBool false => Returns "False"
  | PyInt n => Returns (decimal n)
  | PyStr s => Returns s
  | PyObject formatted => formatted
  end.

(** The values whose formatting returns. *)
Definition formats (v : pyval) : Prop := exists text, py_format v = Returns text.

(** [kwargs[key]]: a missing key raises [KeyError(key)]. *)
Definition getitem (kwargs : gmap string pyval) (key : string) : outcome pyval :=
  match kwargs !! key with
  | Some v => Returns v
  | None => Raises (KeyError key)
  end.

(** [outcome] is the exception monad of pure Python code. *)
#[global] Instance outcome_ret : MRet outcome := fun A a => Returns a.
#[global] Instance outcome_bind : MBind outcome := fun A B k o =>
  match o with
  | Returns a => k a
  | Raises e => Raises e
  end.

(** ** Programs over library calls

    A program either returns, raises, or calls the library with [c] and goes
    on with [k] applied to what the call returned. *)
Inductive prog (E : Type -> Type) (A : Type) : Type :=
| Ret (a : A)
| Raise (e : exn)
| Call {X : Type} (c : E X) (k : X -> prog E A).
Arguments Ret {E A} a.
Arguments Raise {E A} e.
Arguments Call {E A X} c k.

Fixpoint prog_seq {E A B} (k : A -> prog E B) (p : prog E A) : prog E B :=
  match p with
  | Ret a => k a
  | Raise e => Raise e
  | Call c k' => Call c (fun x => prog_seq k (k' x))
  end.

#[global] Instance prog_ret E : MRet (prog E) := fun A a => Ret a.
#[global] Instance prog_bind E : MBind (prog E) := fun A B k p => prog_seq k p.

Definition call {E X} (c : E X) : prog E X := Call c Ret.

Definition lift {E A} (o : outcome A) : prog E A :=
  match o with
  | Returns a => Ret a
  | Raises e => Raise e
  end.

(** An implementation of the library answers every call, by a value or by
    an exception. *)
Definition library (E : Type -> Type) : Type := forall X, E X -> outcome X.

Fixpoint run {E A} (lib : library E) (p : prog E A) : outcome A :=
  match p with
  | Ret a => Returns a
  | Raise e => Raises e
  | Call c k =>
      match lib _ c with
      | Returns x => run lib (k x)
      | Raises e => Raises e
      end
  end.

(** The calls a run makes, in order; a call that raises is the last one. *)
Fixpoint trace {E A} (lib : library E) (p : prog E A) : list (sigT E) :=
  match p with
  | Ret _ | Raise _ => []
  | Call c k =>
      existT _ c ::
        match lib _ c with
        | Returns x => trace lib (k x)
        | Raises _ => []
        end
  end.

(** ** [post_render_func] *)

(** The [info] string of the hook, [x={},y={},z={}] filled from the keyword
    arguments: the three are read in the order [x], [y], [z], then [format]
    fills the fields in that order. *)
Definition post_render_info (kwargs : gmap string pyval) : outcome string :=
  x ← getitem kwargs "x";
  y ← getitem kwargs "y";
  z ← getitem kwargs "z";
  x_text ← py_format x;
  y_text ← py_format y;
  z_text ← py_format z;
  mret ("x=" ++ x_text ++ ",y=" ++ y_text ++ ",z=" ++ z_text).

Definition post_render_func {PILImage : Type} (img : PILImage)
    (kwargs : gmap string pyval) : outcome PILImage :=
  info ← post_render_info kwargs;
  mret img.

(** ** The objects of the libraries

    What the notebook only passes from one library call to the next stays
    abstract.  [rows_in_box df b] is the bounding-box filter of geopandas,
    the rows of [df] whose geometry meets the box [b]; [shape agg] is
    [agg.shape], rows first. *)

(** [shapely.geometry.box(minx, miny, maxx, maxy)]. *)
Record bbox : Type := Box { minx : float; miny : float; maxx : float; maxy : float }.

Class LibraryObjects : Type := {
  GeoDataFrame : Type;
  Series : Type;
  SpatialFrame : Type;
  DataArray : Type;
  Image : Type;
  PILImage : Type;
  Figure : Type;
  TileSource : Type;
  Results : Type;
  rows_in_box : GeoDataFrame -> bbox -> GeoDataFrame;
  shape : DataArray -> Z * Z
}.

(** A slice [start:stop]. *)
Record slice : Type := Slice { start : float; stop : float }.

(** [datashader.Canvas]: the constructor stores its configuration. *)
Record Canvas : Type := {
  x_range : float * float;
  y_range : float * float;
  plot_height : Z;
  plot_width : Z
}.

(** A parameter with a default value: the caller gives it or leaves it out. *)
Inductive arg (A : Type) : Type :=
| Omitted
| Given (a : A).
Arguments Omitted {A}.
Arguments Given {A} a.

Definition arg_default {A} (d : A) (a : arg A) : A :=
  match a with
  | Omitted => d
  | Given v => v
  end.

Section Callbacks.
Context `{LibraryObjects}.

(** *** [load_data_func] *)

(** [df.cx[xs, ys]], the coordinate indexer of geopandas; its key is the
    pair of a slice in x and a slice in y. *)
Inductive geoE : Type -> Type :=
| Cx (df : GeoDataFrame) (key : slice * slice) : geoE GeoDataFrame.

(** [world] is the global the function reads. *)
Definition load_data_func (world : GeoDataFrame)
    (x_range y_range : float * float) : prog geoE GeoDataFrame :=
  call (Cx world (Slice (fst y_range) (snd y_range),
                  Slice (fst x_range) (snd x_range))).

(** *** [rasterize_func] *)

Inductive rasterE : Type -> Type :=
| SpatialGeoDataFrame (df : GeoDataFrame) (geometry : string) : rasterE SpatialFrame
| Polygons (cvs : Canvas) (source : SpatialFrame) (geometry : string) : rasterE DataArray.

Definition rasterize_func (df : GeoDataFrame) (x_range y_range : float * float)
    (height width : Z) : prog rasterE DataArray :=
  spatialpandas_df ← call (SpatialGeoDataFrame df "geometry");
  let cvs := {| x_range := x_range; y_range := y_range;
                plot_height := height; plot_width := width |} in
  agg ← call (Polygons cvs spatialpandas_df "geometry");
  mret agg.

(** *** [shader_func] *)

(** A span is [None] or a pair [(min, max)]. *)
Inductive shadeE : Type -> Type :=
| Shade (agg : DataArray) (cmap : list string) (span : option (float * float))
    (how : string) : shadeE Image
| SetBackground (img : Image) (color : string) : shadeE Image.

Definition shader_func (agg : DataArray) (span : arg (option (float * float)))
    : prog shadeE Image :=
  let span := arg_default None span in
  img ← call (Shade agg ["black"; "teal"] span "log");
  img ← call (SetBackground img "black");
  mret img.
End Callbacks.

(** ** The cells of the notebook *)

(** [range(start, stop)] and the integers it runs through. *)
Record py_range : Type := Range { range_start : Z; range_stop : Z }.

Definition range_items (r : py_range) : list Z :=
  map (fun i => range_start r + Z.of_nat i)
      (seq 0 (Z.to_nat (range_stop r - range_start r))).

(** [int(f)] truncates a float towards zero. *)
Definition py_int (f : float) : outcome Z :=
  match Prim2SF f with
  | S754_zero _ => Returns 0
  | S754_infinity _ => Raises OverflowError
  | S754_nan => Raises ValueError
  | S754_finite neg m e =>
      let magnitude :=
        if (0 <=? e)%Z then Z.pos m * 2 ^ e else Z.pos m / 2 ^ (- e) in
      Returns (if neg then - magnitude else magnitude)
  end.

Section Notebook.
Context `{LibraryObjects}.

(** An argument of the [render_tiles] call: one of the callbacks, a string
    or a pair of integers. *)
Inductive render_arg : Type :=
| LoadFn (f : float * float -> float * float -> prog geoE GeoDataFrame)
| RasterizeFn (f : GeoDataFrame -> float * float -> float * float -> Z -> Z ->
                   prog rasterE DataArray)
| ShaderFn (f : DataArray -> arg (option (float * float)) -> prog shadeE Image)
| HookFn (f : PILImage -> gmap string pyval -> outcome PILImage)
| StrArg (s : string)
| PairArg (lo hi : Z).

(** The library calls of the cells.  [Column df c] is [df.c],
    [NotEqual s v] is [s != v], [Getitem df mask] is [df[mask]] and
    [SetAttr p path v] is the assignment [p.path = v]. *)
Inductive nbE : Type -> Type :=
| DatasetsGetPath (dataset : string) : nbE string
| ReadFile (path : string) : nbE GeoDataFrame
| ToCrs (df : GeoDataFrame) (crs : string) : nbE GeoDataFrame
| Column (df : GeoDataFrame) (name : string) : nbE Series
| NotEqual (s : Series) (v : pyval) : nbE Series
| Getitem (df : GeoDataFrame) (mask : Series) : nbE GeoDataFrame
| Plot (df : GeoDataFrame) (figsize : Z * Z) : nbE unit
| RenderTiles (full_extent : float * float * float * float) (levels : py_range)
    (kwargs : list (string * render_arg)) : nbE Results
| OutputNotebook : nbE unit
| NewFigure (width height : Z) (x_range y_range : Z * Z) (tools : string) : nbE Figure
| SetAttr (p : Figure) (path : list string) (v : pyval) : nbE unit
| WMTSTileSource (url : string) : nbE TileSource
| AddTile (p : Figure) (source : TileSource) (render_parents : bool) : nbE unit
| Show (p : Figure) : nbE unit.

Definition full_extent_of_data : float * float * float * float :=
  (-20e6, 20e6, -20e6, 20e6)%float.

Definition output_path : string := "/Users/bcollins/temp/test_world/".

(** The keyword arguments of the call, [world] being the global at the
    time of the call. *)
Definition render_tiles_kwargs (world : GeoDataFrame) : list (string * render_arg) :=
  [ ("load_data_func", LoadFn (load_data_func world));
    ("rasterize_func", RasterizeFn rasterize_func);
    ("shader_func", ShaderFn shader_func);
    ("post_render_func", HookFn post_render_func);
    ("output_path", StrArg output_path);
    ("color_ranging_strategy", PairArg 0 2) ].

Definition load_world : prog nbE GeoDataFrame :=
  path ← call (DatasetsGetPath "naturalearth_lowres");
  world ← call (ReadFile path);
  world ← call (ToCrs world "EPSG:3857");
  continent ← call (Column world "continent");
  mask ← call (NotEqual continent (PyStr "Antarctica"));
  world ← call (Getitem world mask);
  _ ← call (Plot world (7, 7));
  mret world.

Definition render (world : GeoDataFrame) : prog nbE unit :=
  results ← call (RenderTiles full_extent_of_data (Range 0 8)
                    (render_tiles_kwargs world));
  mret tt.

Definition preview : prog nbE unit :=
  _ ← call OutputNotebook;
  let '(xmin, ymin, xmax, ymax) := full_extent_of_data in
  x_lo ← lift (py_int (-20e6)%float);
  x_hi ← lift (py_int 20e6%float);
  y_lo ← lift (py_int (-20e6)%float);
  y_hi ← lift (py_int 20e6%float);
  p ← call (NewFigure 800 800 (x_lo, x_hi) (y_lo, y_hi) "pan,wheel_zoom,reset");
  _ ← call (SetAttr p ["axis"; "visible"] (PyBool false));
  _ ← call (SetAttr p ["background_fill_color"] (PyStr "black"));
  _ ← call (SetAttr p ["grid"; "grid_line_alpha"] (PyInt 0));
  source ← call (WMTSTileSource "http://localhost:10000/{Z}/{X}/{Y}.png");
  _ ← call (AddTile p source false);
  call (Show p).

Definition notebook : prog nbE unit :=
  world ← load_world;
  _ ← render world;
  preview.

(** The [render_tiles] calls and the tile sources among the calls made. *)
Definition render_tiles_call (c : sigT nbE)
    : option (float * float * float * float * py_range * list (string * render_arg)) :=
  match c with
  | existT _ (RenderTiles extent levels kwargs) => Some (extent, levels, kwargs)
  | _ => None
  end.

Definition tile_source_url (c : sigT nbE) : option string :=
  match c with
  | existT _ (WMTSTileSource url) => Some url
  | _ => None
  end.
End Notebook.

(** ** What the notebook relies on outside its cells *)

(** [kwargs[name]] of a call written with keywords. *)
Fixpoint kwarg {A} (name : string) (kwargs : list (string * A)) : option A :=
  match kwargs with
  | [] => None
  | (n, v) :: rest => if String.eqb n name then Some v else kwarg name rest
  end.

(** Modelled from the spec: the color-ranging strategy of [render_tiles],
    whose declaration is not part of the notebook.  The value range used to
    map aggregated values to colors is either fixed or computed, per tile or
    per pyramid; a pair of numbers is the fixed range. *)
Inductive color_ranging : Type :=
| FixedRange (lo hi : Z)
| ComputedRange.

Definition color_ranging_policy `{LibraryObjects} (a : render_arg)
    : option color_ranging :=
  match a with
  | PairArg lo hi => Some (FixedRange lo hi)
  | StrArg _ => Some ComputedRange
  | _ => None
  end.

(** Modelled from the spec: the image properties [render_tiles], which is
    not part of the notebook, hands to the post-render hook for the tile at
    the address (zoom, x, y). *)
Definition tile_properties (zoom x y : Z) : gmap string pyval :=
  <["x" := PyInt x]> (<["y" := PyInt y]> (<["z" := PyInt zoom]> ∅)).


(** Whether the character [c] occurs in [s]. *)
Fixpoint occurs (c : ascii) (s : string) : bool :=
  match s with
  | EmptyString => false
  | String a rest => Ascii.eqb a c || occurs c rest
  end.

(** The contract of the coordinate indexer: what [df.cx[xs, ys]] returns
    is the bounding-box filter of [df] for the box that spans [xs] in x and
    [ys] in y.  The indexer may raise. *)
Definition cx_contract `{LibraryObjects} (lib : library geoE) : Prop :=
  forall df xs ys rows,
    lib _ (Cx df (xs, ys)) = Returns rows ->
    rows = rows_in_box df (Box (start xs) (start ys) (stop xs) (stop ys)).

(** The contract of the canvas: an aggregate has [plot_height] rows and
    [plot_width] columns. *)
Definition canvas_contract `{LibraryObjects} (lib : library rasterE) : Prop :=
  forall cvs source geometry agg,
    lib _ (Polygons cvs source geometry) = Returns agg ->
    shape agg = (plot_height cvs, plot_width cvs).

(** ** A small implementation of the libraries

    Frames of named points, rasters as lists of rows: enough to run the
    callbacks and the cells on concrete inputs. *)
Module Demo.
Definition frame : Type := list (string * (float * float)).
Definition raster : Type := list (list Z).

Definition in_box (b : bbox) (row : string * (float * float)) : bool :=
  let '(x, y) := snd row in
  (minx b <=? x)%float && (x <=? maxx b)%float
  && (miny b <=? y)%float && (y <=? maxy b)%float.

#[global] Instance objects : LibraryObjects := {|
  GeoDataFrame := frame;
  Series := list bool;
  SpatialFrame := frame;
  DataArray := raster;
  Image := raster;
  PILImage := raster;
  Figure := unit;
  TileSource := string;
  Results := unit;
  rows_in_box df b := filter (in_box b) df;
  shape agg := (Z.of_nat (length agg), Z.of_nat (length (hd [] agg)))
|}.

Definition geopandas : library geoE := fun X c =>
  match c in geoE X return outcome X with
  | Cx df (xs, ys) =>
      Returns (rows_in_box df (Box (start xs) (start ys) (stop xs) (stop ys)))
  end.

Definition blank (height width : Z) : raster :=
  repeat (repeat 0 (Z.to_nat width)) (Z.to_nat height).

Definition datashader : library rasterE := fun X c =>
  match c in rasterE X return outcome X with
  | SpatialGeoDataFrame df _ => Returns df
  | Polygons cvs _ _ =>
      if ((0 <? plot_height cvs) && (0 <? plot_width cvs))%Z
      then Returns (blank (plot_height cvs) (plot_width cvs))
      else Raises ValueError
  end.

Definition transfer_functions : library shadeE := fun X c =>
  match c in shadeE X return outcome X with
  | Shade agg _ _ _ => Returns agg
  | SetBackground img _ => Returns img
  end.

Definition world : frame :=
  [ ("Ottawa", (-8427000, 5690000)%float); ("Perth", (12897000, -3757000)%float) ].

Definition session : library nbE := fun X c =>
  match c in nbE X return outcome X with
  | DatasetsGetPath dataset => Returns dataset
  | ReadFile _ => Returns world
  | ToCrs df _ => Returns df
  | Column df _ => Returns (map (fun _ => true) df)
  | NotEqual s _ => Returns s
  | Getitem df _ => Returns df
  | Plot _ _ => Returns tt
  | RenderTiles _ _ _ => Returns tt
  | OutputNotebook => Returns tt
  | NewFigure _ _ _ _ _ => Returns tt
  | SetAttr _ _ _ => Returns tt
  | WMTSTileSource url => Returns url
  | AddTile _ _ _ => Returns tt
  | Show _ => Returns tt
  end.
End Demo.

(** * Properties *)

(** ** Runs of programs *)

Lemma run_bind {E A B} (lib : library E) (p : prog E A) (k : A -> prog E B) :
  run lib (p ≫= k) = run lib p ≫= (fun a => run lib (k a)).
Proof.
  induction p as [a | e | X c k' IH]; try reflexivity.
  cbn. destruct (lib X c); [apply IH | reflexivity].
Qed.

Lemma trace_bind {E A B} (lib : library E) (p : prog E A) (k : A -> prog E B) :
  trace lib (p ≫= k)
  = (trace lib p ++ match run lib p with
                    | Returns a => trace lib (k a)
                    | Raises _ => []
                    end)%list.
Proof.
  induction p as [a | e | X c k' IH]; try reflexivity.
  cbn. f_equal. destruct (lib X c); [apply IH | reflexivity].
Qed.

Lemma run_call {E X} (lib : library E) (c : E X) : run lib (call c) = lib X c.
Proof. cbn. destruct (lib X c); reflexivity. Qed.

Lemma bind_returns {A B} (o : outcome A) (k : A -> outcome B) (b : B) :
  o ≫= k = Returns b -> exists a, o = Returns a /\ k a = Returns b.
Proof. destruct o as [a | e]; [eauto | discriminate]. Qed.

(** ** The post-render hook *)

Lemma getitem_returns (kwargs : gmap string pyval) (key : string) (v : pyval) :
  kwargs !! key = Some v -> getitem kwargs key = Returns v.
Proof. unfold getitem. intros ->. reflexivity. Qed.

Lemma getitem_raises (kwargs : gmap string pyval) (key : string) :
  kwargs !! key = None -> getitem kwargs key = Raises (KeyError key).
Proof. unfold getitem. intros ->. reflexivity. Qed.

(** Values other than objects always format. *)
Lemma scalars_format (v : pyval) :
  (forall formatted, v <> PyObject formatted) -> formats v.
Proof.
  unfold formats. destruct v as [| [] | n | s | formatted]; cbn; eauto.
  intros Hscalar. destruct (Hscalar formatted eq_refl).
Qed.

Lemma post_render_info_returns (kwargs : gmap string pyval) (x y z : pyval)
    (x_text y_text z_text : string) :
  kwargs !! "x" = Some x -> kwargs !! "y" = Some y -> kwargs !! "z" = Some z ->
  py_format x = Returns x_text -> py_format y = Returns y_text ->
  py_format z = Returns z_text ->
  post_render_info kwargs
  = Returns ("x=" ++ x_text ++ ",y=" ++ y_text ++ ",z=" ++ z_text).
Proof.
  intros Hx Hy Hz Hxt Hyt Hzt. unfold post_render_info.
  rewrite (getitem_returns _ _ _ Hx), (getitem_returns _ _ _ Hy),
    (getitem_returns _ _ _ Hz).
  cbn. rewrite Hxt. cbn. rewrite Hyt. cbn. rewrite Hzt. reflexivity.
Qed.

(** With the three keys bound, the hook raises what formatting the first
    value that does not format raises. *)
Lemma post_render_func_bound {I : Type} (img : I) (kwargs : gmap string pyval)
    (x y z : pyval) :
  kwargs !! "x" = Some x -> kwargs !! "y" = Some y -> kwargs !! "z" = Some z ->
  post_render_func img kwargs
  = (py_format x ≫= fun _ => py_format y ≫= fun _ => py_format z ≫= fun _ =>
     Returns img).
Proof.
  intros Hx Hy Hz. unfold post_render_func, post_render_info.
  rewrite (getitem_returns _ _ _ Hx), (getitem_returns _ _ _ Hy),
    (getitem_returns _ _ _ Hz).
  cbn. destruct (py_format x); cbn; [| reflexivity].
  destruct (py_format y); cbn; [| reflexivity].
  destruct (py_format z); reflexivity.
Qed.

(** C2: on keyword arguments that bind [x], [y] and [z] to values that
    format, whatever these values are, [post_render_func] returns the image
    it was given. *)
Theorem post_render_func_returns_img {I : Type} (img : I)
    (kwargs : gmap string pyval) (x y z : pyval) :
  kwargs !! "x" = Some x -> kwargs !! "y" = Some y -> kwargs !! "z" = Some z ->
  formats x -> formats y -> formats z ->
  post_render_func img kwargs = Returns img.
Proof.
  intros Hx Hy Hz [x_text Hxt] [y_text Hyt] [z_text Hzt].
  unfold post_render_func.
  rewrite (post_render_info_returns _ _ _ _ _ _ _ Hx Hy Hz Hxt Hyt Hzt).
  reflexivity.
Qed.

Lemma post_render_func_returns_img_witness :
  let kwargs : gmap string pyval :=
    <["x" := PyInt 5]> (<["y" := PyStr "north"]> (<["z" := PyNone]> ∅)) in
  (kwargs !! "x" = Some (PyInt 5) /\ kwargs !! "y" = Some (PyStr "north")
   /\ kwargs !! "z" = Some PyNone)
  /\ (formats (PyInt 5) /\ formats (PyStr "north") /\ formats PyNone)
  /\ post_render_func 7%Z kwargs = Returns 7%Z.
Proof.
  cbv zeta.
  assert (Hformats : formats (PyInt 5) /\ formats (PyStr "north") /\ formats PyNone).
  { repeat split; eexists; reflexivity. }
  split; [repeat split; vm_compute; reflexivity |].
  split; [exact Hformats |].
  destruct Hformats as (Hx & Hy & Hz).
  apply (post_render_func_returns_img 7%Z _ (PyInt 5) (PyStr "north") PyNone);
    (vm_compute; reflexivity) || assumption.
Defined.

(** With [x], [y] and [z] bound, the hook still raises when a value does
    not format: here [x] is an object whose [__format__] raises
    [ValueError]. *)
Lemma post_render_func_format_raises :
  let kwargs : gmap string pyval :=
    <["x" := PyObject (Raises ValueError)]>
      (<["y" := PyInt 0]> (<["z" := PyInt 0]> ∅)) in
  (is_Some (kwargs !! "x") /\ is_Some (kwargs !! "y") /\ is_Some (kwargs !! "z"))
  /\ post_render_func 7%Z kwargs = Raises ValueError
  /\ post_render_func 7%Z kwargs <> Returns 7%Z.
Proof.
  cbv zeta.
  assert (Hraises : post_render_func 7%Z
    (<["x" := PyObject (Raises ValueError)]>
       (<["y" := PyInt 0]> (<["z" := PyInt 0]> ∅))) = Raises ValueError).
  { vm_compute. reflexivity. }
  split; [repeat split; vm_compute; eauto |].
  split; [exact Hraises |]. rewrite Hraises. discriminate.
Qed.

(** C3: when one of the keys [x], [y], [z] is missing, [post_render_func]
    raises a [KeyError], whatever the values of the others; and when no
    bound value raises a [KeyError] from its own formatting, a [KeyError]
    of the hook means that a key is missing. *)
Theorem post_render_func_keyerror {I : Type} (img : I)
    (kwargs : gmap string pyval) :
  ((kwargs !! "x" = None \/ kwargs !! "y" = None \/ kwargs !! "z" = None) ->
   exists key, post_render_func img kwargs = Raises (KeyError key))
  /\ ((forall name v key, In name ["x"; "y"; "z"] -> kwargs !! name = Some v ->
                          py_format v <> Raises (KeyError key)) ->
      (exists key, post_render_func img kwargs = Raises (KeyError key)) ->
      kwargs !! "x" = None \/ kwargs !! "y" = None \/ kwargs !! "z" = None).
Proof.
  destruct (kwargs !! "x") as [x |] eqn:Hx.
  2: { split; [intros _ | tauto]. exists "x".
       unfold post_render_func, post_render_info, getitem. rewrite Hx.
       reflexivity. }
  destruct (kwargs !! "y") as [y |] eqn:Hy.
  2: { split; [intros _ | tauto]. exists "y".
       unfold post_render_func, post_render_info, getitem. rewrite Hx, Hy.
       reflexivity. }
  destruct (kwargs !! "z") as [z |] eqn:Hz.
  2: { split; [intros _ | tauto]. exists "z".
       unfold post_render_func, post_render_info, getitem. rewrite Hx, Hy, Hz.
       reflexivity. }
  split; [intros [? | [? | ?]]; discriminate |].
  rewrite (post_render_func_bound img kwargs x y z Hx Hy Hz).
  intros Hformat [key Hraise]. exfalso.
  destruct (py_format x) as [x_text | e] eqn:Hxt; cbn in Hraise.
  2: { injection Hraise as ->. apply (Hformat "x" x key); cbn; auto. }
  destruct (py_format y) as [y_text | e] eqn:Hyt; cbn in Hraise.
  2: { injection Hraise as ->. apply (Hformat "y" y key); cbn; auto. }
  destruct (py_format z) as [z_text | e] eqn:Hzt; cbn in Hraise.
  2: { injection Hraise as ->. apply (Hformat "z" z key); cbn; auto. }
  discriminate Hraise.
Qed.

Lemma post_render_func_keyerror_witness :
  let kwargs : gmap string pyval :=
    <["x" := PyInt 5]> (<["z" := PyObject (Raises ValueError)]> ∅) in
  (kwargs !! "y" = None
   /\ forall name v key, In name ["x"; "y"; "z"] -> kwargs !! name = Some v ->
                         py_format v <> Raises (KeyError key))
  /\ exists key, post_render_func 7%Z kwargs = Raises (KeyError key).
Proof.
  cbv zeta.
  assert (Hy : (<["x" := PyInt 5]> (<["z" := PyObject (Raises ValueError)]> ∅)
                : gmap string pyval) !! "y" = None).
  { vm_compute. reflexivity. }
  split.
  - split; [exact Hy |].
    intros name v key [<- | [<- | [<- | []]]]; vm_compute; intros [= <-];
      discriminate.
  - apply (post_render_func_keyerror 7%Z). right; left. exact Hy.
Defined.

(** With no key missing the hook can still raise a [KeyError]: the one the
    formatting of a value raises. *)
Lemma post_render_func_keyerror_from_format :
  let kwargs : gmap string pyval :=
    <["x" := PyObject (Raises (KeyError "colour"))]>
      (<["y" := PyInt 0]> (<["z" := PyInt 0]> ∅)) in
  (exists key, post_render_func 7%Z kwargs = Raises (KeyError key))
  /\ ~ (kwargs !! "x" = None \/ kwargs !! "y" = None \/ kwargs !! "z" = None).
Proof.
  cbv zeta. split.
  - exists "colour". vm_compute. reflexivity.
  - intros [Hx | [Hy | Hz]]; vm_compute in *; discriminate.
Qed.

(** ** The callbacks *)

Section CallbackProperties.
Context `{LibraryObjects}.

(** Under the contract of the indexer, what [load_data_func] returns is
    the bounding-box filter of [world] for the box that spans [y_range] in
    x and [x_range] in y. *)
Lemma load_data_func_box (lib : library geoE) (world : GeoDataFrame)
    (x0 x1 y0 y1 : float) (rows : GeoDataFrame) :
  cx_contract lib ->
  run lib (load_data_func world (x0, x1) (y0, y1)) = Returns rows ->
  rows = rows_in_box world (Box y0 x0 y1 x1).
Proof.
  intros Hcx. unfold load_data_func. rewrite run_call. apply Hcx.
Qed.

(** C4: [shader_func] is one call of [shade] with the colormap
    [['black', 'teal']], the span given and [how='log'], then
    [set_background] with ['black'] on its image; a span left out is
    [None]. *)
Theorem shader_func_shades (lib : library shadeE) (agg : DataArray)
    (span : option (float * float)) :
  let shade := Shade agg ["black"; "teal"] span "log" in
  run lib (shader_func agg (Given span))
  = (lib _ shade ≫= fun img => lib _ (SetBackground img "black"))
  /\ trace lib (shader_func agg (Given span))
     = existT _ shade ::
         match lib _ shade with
         | Returns img => [existT _ (SetBackground img "black")]
         | Raises _ => []
         end
  /\ shader_func agg Omitted = shader_func agg (Given None).
Proof.
  cbn. destruct (lib Image (Shade agg ["black"; "teal"] span "log")) as [img | e];
    cbn; [| auto].
  destruct (lib Image (SetBackground img "black")); auto.
Qed.

Lemma rasterize_func_run (lib : library rasterE) (df : GeoDataFrame)
    (x_range y_range : float * float) (height width : Z) :
  run lib (rasterize_func df x_range y_range height width)
  = (lib _ (SpatialGeoDataFrame df "geometry") ≫= fun source =>
     lib _ (Polygons {| x_range := x_range; y_range := y_range;
                        plot_height := height; plot_width := width |}
                     source "geometry")).
Proof.
  cbn. destruct (lib SpatialFrame (SpatialGeoDataFrame df "geometry")) as [source | e];
    cbn; [| reflexivity].
  destruct (lib DataArray (Polygons _ source "geometry")); reflexivity.
Qed.

(** C5: [rasterize_func] returns the aggregate of the polygons of the
    ['geometry'] column of [df] on the canvas with the ranges given,
    [plot_height = height] and [plot_width = width]; these are its only
    library calls. *)
Theorem rasterize_func_aggregates (lib : library rasterE) (df : GeoDataFrame)
    (x_range y_range : float * float) (height width : Z) :
  let frame := SpatialGeoDataFrame df "geometry" in
  let cvs := {| x_range := x_range; y_range := y_range;
                plot_height := height; plot_width := width |} in
  run lib (rasterize_func df x_range y_range height width)
  = (lib _ frame ≫= fun source => lib _ (Polygons cvs source "geometry"))
  /\ trace lib (rasterize_func df x_range y_range height width)
     = existT _ frame ::
         match lib _ frame with
         | Returns source => [existT _ (Polygons cvs source "geometry")]
         | Raises _ => []
         end.
Proof.
  cbv zeta. split; [apply rasterize_func_run |].
  cbn. destruct (lib SpatialFrame (SpatialGeoDataFrame df "geometry")) as [source | e];
    cbn; [| reflexivity].
  destruct (lib DataArray (Polygons _ source "geometry")); reflexivity.
Qed.

(** C10: with a canvas that keeps its contract, the aggregate
    [rasterize_func] returns has [height] rows and [width] columns. *)
Theorem rasterize_func_shape (lib : library rasterE) (df : GeoDataFrame)
    (x_range y_range : float * float) (height width : Z) (agg : DataArray) :
  canvas_contract lib ->
  run lib (rasterize_func df x_range y_range height width) = Returns agg ->
  shape agg = (height, width).
Proof.
  intros Hcanvas. rewrite rasterize_func_run.
  intros (source & _ & Hagg)%bind_returns.
  apply Hcanvas in Hagg. exact Hagg.
Qed.
End CallbackProperties.

(** The small implementation keeps both contracts. *)
Lemma demo_cx_contract : cx_contract Demo.geopandas.
Proof. intros df xs ys rows [= <-]. reflexivity. Qed.

Lemma demo_blank_shape (height width : Z) :
  0 < height -> shape (Demo.blank height width) = (height, Z.max 0 width).
Proof.
  intros Hpos. unfold Demo.blank. cbn.
  rewrite repeat_length, Z2Nat.id by lia.
  destruct (Z.to_nat height) as [| n] eqn:Hn; [lia |].
  cbn. rewrite repeat_length. f_equal. lia.
Qed.

Lemma demo_canvas_contract : canvas_contract Demo.datashader.
Proof.
  intros cvs source geometry agg Hagg. cbn in Hagg.
  destruct (0 <? plot_height cvs)%Z eqn:Hh; [| discriminate].
  destruct (0 <? plot_width cvs)%Z eqn:Hw; [| discriminate].
  cbn in Hagg. injection Hagg as <-. apply Z.ltb_lt in Hh, Hw.
  rewrite demo_blank_shape by exact Hh. f_equal. lia.
Qed.

Lemma load_data_func_box_witness :
  (cx_contract Demo.geopandas
   /\ run Demo.geopandas (load_data_func Demo.world (-20e6, 0)%float (0, 20e6)%float)
      = Returns [("Perth", (12897000, -3757000)%float)])
  /\ [("Perth", (12897000, -3757000)%float)]
     = rows_in_box Demo.world (Box 0 (-20e6) 20e6 0).
Proof.
  split; [split; [exact demo_cx_contract | vm_compute; reflexivity] |].
  apply (load_data_func_box Demo.geopandas Demo.world (-20e6) 0 0 20e6).
  - exact demo_cx_contract.
  - vm_compute. reflexivity.
Defined.

(** C1: [load_data_func] hands [y_range] to the indexer as the slice in x
    and [x_range] as the slice in y.  For the supertile with x from -20e6 to
    0 and y from 0 to 20e6 the bounding-box filter of the world keeps Ottawa,
    and [load_data_func] returns Perth. *)
Theorem load_data_func_swaps_ranges :
  let x_range := (-20e6, 0)%float in
  let y_range := (0, 20e6)%float in
  rows_in_box Demo.world (Box (fst x_range) (fst y_range) (snd x_range) (snd y_range))
  = [("Ottawa", (-8427000, 5690000)%float)]
  /\ run Demo.geopandas (load_data_func Demo.world x_range y_range)
     = Returns [("Perth", (12897000, -3757000)%float)].
Proof. split; vm_compute; reflexivity. Qed.

Lemma rasterize_func_shape_witness :
  (canvas_contract Demo.datashader
   /\ run Demo.datashader (rasterize_func Demo.world (-20e6, 0)%float (0, 20e6)%float 3 4)
      = Returns (Demo.blank 3 4))
  /\ shape (Demo.blank 3 4) = (3, 4).
Proof.
  split; [split; [exact demo_canvas_contract | reflexivity] |].
  apply (rasterize_func_shape Demo.datashader Demo.world
           (-20e6, 0)%float (0, 20e6)%float 3 4 (Demo.blank 3 4)).
  - exact demo_canvas_contract.
  - reflexivity.
Defined.

(** ** The cells *)

Lemma py_int_lo : py_int (-20e6)%float = Returns (-20000000).
Proof. vm_compute. reflexivity. Qed.

Lemma py_int_hi : py_int 20e6%float = Returns 20000000.
Proof. vm_compute. reflexivity. Qed.

Section NotebookProperties.
Context `{LibraryObjects}.
Variable lib : library nbE.

Ltac step_calls :=
  repeat match goal with
    | |- context [lib ?X ?c] => destruct (lib X c); cbn
    end.

Lemma load_world_calls :
  omap render_tiles_call (trace lib load_world) = []
  /\ omap tile_source_url (trace lib load_world) = [].
Proof. unfold load_world. cbn. step_calls. all: split; reflexivity. Qed.

Lemma render_calls (world : GeoDataFrame) :
  omap render_tiles_call (trace lib (render world))
  = [(full_extent_of_data, Range 0 8, render_tiles_kwargs world)]
  /\ omap tile_source_url (trace lib (render world)) = [].
Proof. unfold render. cbn. step_calls. all: split; reflexivity. Qed.

Lemma preview_calls :
  omap render_tiles_call (trace lib preview) = []
  /\ (run lib preview = Returns tt ->
      omap tile_source_url (trace lib preview)
      = ["http://localhost:10000/{Z}/{X}/{Y}.png"]).
Proof.
  unfold preview, full_extent_of_data. rewrite py_int_lo, py_int_hi. cbn.
  step_calls. all: split; (reflexivity || discriminate).
Qed.

(** However the library answers, [render_tiles] is called at most once. *)
Lemma notebook_renders_at_most_once :
  (length (omap render_tiles_call (trace lib notebook)) <= 1)%nat.
Proof.
  unfold notebook. rewrite trace_bind, omap_app.
  destruct load_world_calls as [-> _]. cbn [app].
  destruct (run lib load_world) as [world | e]; [| cbn; lia].
  rewrite trace_bind, omap_app.
  destruct (render_calls world) as [-> _].
  destruct (run lib (render world)) as [[] | e]; [| cbn; lia].
  destruct preview_calls as [-> _]. cbn. lia.
Qed.

(** A run of all cells that ends well loads [world], calls [render_tiles]
    once and makes one tile source. *)
Lemma notebook_calls :
  run lib notebook = Returns tt ->
  exists world,
    run lib load_world = Returns world
    /\ omap render_tiles_call (trace lib notebook)
       = [(full_extent_of_data, Range 0 8, render_tiles_kwargs world)]
    /\ omap tile_source_url (trace lib notebook)
       = ["http://localhost:10000/{Z}/{X}/{Y}.png"].
Proof.
  unfold notebook. rewrite run_bind, trace_bind.
  destruct (run lib load_world) as [world | e] eqn:Hworld; [| discriminate].
  cbn [mbind outcome_bind]. rewrite run_bind, trace_bind.
  destruct (run lib (render world)) as [[] | e] eqn:Hrender; [| discriminate].
  cbn [mbind outcome_bind]. intros Hpreview.
  exists world. split; [reflexivity |].
  rewrite !omap_app.
  destruct load_world_calls as [-> ->].
  destruct (render_calls world) as [-> ->].
  destruct preview_calls as [-> Hurl].
  rewrite (Hurl Hpreview). split; reflexivity.
Qed.
End NotebookProperties.

Section CellClaims.
Context `{LibraryObjects}.
Variable lib : library nbE.

(** C6: the cells call [render_tiles] once, with the four callbacks of the
    notebook under the keywords of their names, an output path and a
    color-ranging strategy, and with no other keyword. *)
Theorem notebook_renders_once :
  run lib notebook = Returns tt ->
  exists world extent levels path strategy,
    run lib load_world = Returns world
    /\ is_Some (color_ranging_policy strategy)
    /\ omap render_tiles_call (trace lib notebook)
       = [(extent, levels,
           [ ("load_data_func", LoadFn (load_data_func world));
             ("rasterize_func", RasterizeFn rasterize_func);
             ("shader_func", ShaderFn shader_func);
             ("post_render_func", HookFn post_render_func);
             ("output_path", StrArg path);
             ("color_ranging_strategy", strategy) ])].
Proof.
  intros (world & Hworld & Hcalls & _)%notebook_calls.
  exists world, full_extent_of_data, (Range 0 8), output_path, (PairArg 0 2).
  split; [exact Hworld |]. split; [cbn; eauto |]. exact Hcalls.
Qed.

(** C7: the color-ranging strategy of the call is the pair [(0, 2)], the
    fixed range from 0 to 2 and not a computed one. *)
Theorem notebook_fixed_color_range :
  run lib notebook = Returns tt ->
  exists extent levels kwargs,
    omap render_tiles_call (trace lib notebook) = [(extent, levels, kwargs)]
    /\ kwarg "color_ranging_strategy" kwargs = Some (PairArg 0 2)
    /\ kwarg "color_ranging_strategy" kwargs ≫= color_ranging_policy
       = Some (FixedRange 0 2).
Proof.
  intros (world & _ & Hcalls & _)%notebook_calls.
  exists full_extent_of_data, (Range 0 8), (render_tiles_kwargs world).
  split; [exact Hcalls |]. split; reflexivity.
Qed.

(** C8: the call asks for the zoom levels of [range(0, 8)], which are 0 to
    7, over the extent [(-20e6, 20e6, -20e6, 20e6)]. *)
Theorem notebook_zoom_levels :
  run lib notebook = Returns tt ->
  exists levels kwargs,
    omap render_tiles_call (trace lib notebook)
    = [((-20e6, 20e6, -20e6, 20e6)%float, levels, kwargs)]
    /\ levels = Range 0 8
    /\ range_items levels = [0; 1; 2; 3; 4; 5; 6; 7]
    /\ forall zoom, In zoom (range_items levels) <-> 0 <= zoom <= 7.
Proof.
  intros (world & _ & Hcalls & _)%notebook_calls.
  exists (Range 0 8), (render_tiles_kwargs world).
  split; [exact Hcalls |]. split; [reflexivity |]. split; [reflexivity |].
  intros zoom. change (range_items (Range 0 8)) with [0; 1; 2; 3; 4; 5; 6; 7].
  cbn [In]. lia.
Qed.

End CellClaims.

Lemma notebook_renders_once_witness :
  run Demo.session notebook = Returns tt
  /\ length (omap render_tiles_call (trace Demo.session notebook)) = 1%nat.
Proof.
  split; [reflexivity |].
  destruct (notebook_renders_once Demo.session eq_refl)
    as (world & extent & levels & path & strategy & _ & _ & ->).
  reflexivity.
Defined.

Lemma notebook_fixed_color_range_witness :
  run Demo.session notebook = Returns tt
  /\ exists extent levels kwargs,
       omap render_tiles_call (trace Demo.session notebook) = [(extent, levels, kwargs)]
       /\ kwarg "color_ranging_strategy" kwargs = Some (PairArg 0 2)
       /\ kwarg "color_ranging_strategy" kwargs ≫= color_ranging_policy
          = Some (FixedRange 0 2).
Proof.
  split; [reflexivity |].
  apply (notebook_fixed_color_range Demo.session). reflexivity.
Defined.

Lemma notebook_zoom_levels_witness :
  run Demo.session notebook = Returns tt
  /\ exists levels kwargs,
       omap render_tiles_call (trace Demo.session notebook)
       = [((-20e6, 20e6, -20e6, 20e6)%float, levels, kwargs)]
       /\ levels = Range 0 8
       /\ range_items levels = [0; 1; 2; 3; 4; 5; 6; 7]
       /\ forall zoom, In zoom (range_items levels) <-> 0 <= zoom <= 7.
Proof.
  split; [reflexivity |].
  apply (notebook_zoom_levels Demo.session). reflexivity.
Defined.


(** * Further properties of the callbacks and the cells *)

(** ** The hook and its keyword arguments *)

(** The lookups come before any formatting, in the order [x], [y], [z]:
    when a key is missing the hook raises the [KeyError] of the first one
    missing, whatever the values of the others; and when no bound value
    raises a [KeyError] from its own formatting, the hook raises the
    [KeyError] of no other key. *)
Theorem post_render_func_keyerror_names_first_missing {I : Type} (img : I)
    (kwargs : gmap string pyval) :
  (kwargs !! "x" = None -> post_render_func img kwargs = Raises (KeyError "x"))
  /\ (is_Some (kwargs !! "x") -> kwargs !! "y" = None ->
      post_render_func img kwargs = Raises (KeyError "y"))
  /\ (is_Some (kwargs !! "x") -> is_Some (kwargs !! "y") -> kwargs !! "z" = None ->
      post_render_func img kwargs = Raises (KeyError "z"))
  /\ ((forall name v key, In name ["x"; "y"; "z"] -> kwargs !! name = Some v ->
                          py_format v <> Raises (KeyError key)) ->
      forall key,
        post_render_func img kwargs = Raises (KeyError key)
        <-> (key = "x" /\ kwargs !! "x" = None)
            \/ (key = "y" /\ is_Some (kwargs !! "x") /\ kwargs !! "y" = None)
            \/ (key = "z" /\ is_Some (kwargs !! "x") /\ is_Some (kwargs !! "y")
                /\ kwargs !! "z" = None)).
Proof.
  assert (Hfirst :
    (kwargs !! "x" = None -> post_render_func img kwargs = Raises (KeyError "x"))
    /\ (is_Some (kwargs !! "x") -> kwargs !! "y" = None ->
        post_render_func img kwargs = Raises (KeyError "y"))
    /\ (is_Some (kwargs !! "x") -> is_Some (kwargs !! "y") ->
        kwargs !! "z" = None ->
        post_render_func img kwargs = Raises (KeyError "z"))).
  { unfold post_render_func, post_render_info, getitem. repeat split.
    - intros ->. reflexivity.
    - intros [x ->] ->. reflexivity.
    - intros [x ->] [y ->] ->. reflexivity. }
  destruct Hfirst as (Hx & Hy & Hz).
  split; [exact Hx |]. split; [exact Hy |]. split; [exact Hz |].
  intros Hformat key. split.
  - intros Hraise.
    destruct (kwargs !! "x") as [x |] eqn:Ex.
    2: { rewrite Hx in Hraise by reflexivity. injection Hraise as <-. auto. }
    destruct (kwargs !! "y") as [y |] eqn:Ey.
    2: { rewrite Hy in Hraise by eauto. injection Hraise as <-. eauto 6. }
    destruct (kwargs !! "z") as [z |] eqn:Ez.
    2: { rewrite Hz in Hraise by eauto. injection Hraise as <-. eauto 10. }
    exfalso. rewrite (post_render_func_bound img kwargs x y z Ex Ey Ez) in Hraise.
    destruct (py_format x) as [x_text | e] eqn:Hxt; cbn in Hraise.
    2: { injection Hraise as ->. apply (Hformat "x" x key); cbn; auto. }
    destruct (py_format y) as [y_text | e] eqn:Hyt; cbn in Hraise.
    2: { injection Hraise as ->. apply (Hformat "y" y key); cbn; auto. }
    destruct (py_format z) as [z_text | e] eqn:Hzt; cbn in Hraise.
    2: { injection Hraise as ->. apply (Hformat "z" z key); cbn; auto. }
    discriminate Hraise.
  - intros [[-> Ex] | [(-> & Ex & Ey) | (-> & Ex & Ey & Ez)]]; auto.
Qed.

(** The hook looks at no key but [x], [y] and [z]: keyword arguments that
    agree on these three give the same info and the same outcome. *)
Theorem post_render_func_reads_only_x_y_z {I : Type} (img : I)
    (kwargs kwargs' : gmap string pyval) :
  (forall key, In key ["x"; "y"; "z"] -> kwargs !! key = kwargs' !! key) ->
  post_render_info kwargs = post_render_info kwargs'
  /\ post_render_func img kwargs = post_render_func img kwargs'.
Proof.
  intros Hagree.
  assert (Hinfo : post_render_info kwargs = post_render_info kwargs').
  { unfold post_render_info, getitem.
    rewrite (Hagree "x"), (Hagree "y"), (Hagree "z") by (cbn; tauto).
    reflexivity. }
  split; [exact Hinfo |]. unfold post_render_func. rewrite Hinfo. reflexivity.
Qed.

Lemma post_render_func_reads_only_x_y_z_witness :
  let kwargs : gmap string pyval := tile_properties 3 5 2 in
  let kwargs' : gmap string pyval :=
    <["format" := PyStr "png"]> (<["tile_size" := PyInt 256]> kwargs) in
  kwargs <> kwargs'
  /\ post_render_info kwargs = post_render_info kwargs'
  /\ post_render_func 7%Z kwargs = post_render_func 7%Z kwargs'.
Proof.
  cbv zeta. split.
  - intros Heq.
    assert (Hformat : tile_properties 3 5 2 !! "format" = Some (PyStr "png")).
    { rewrite Heq. apply lookup_insert_eq. }
    vm_compute in Hformat. discriminate Hformat.
  - apply post_render_func_reads_only_x_y_z.
    intros key [<- | [<- | [<- | []]]]; vm_compute; reflexivity.
Defined.

(** ** The info text *)

Lemma occurs_comma_digits (d : Decimal.uint) :
  occurs "," (NilEmpty.string_of_uint d) = false.
Proof. induction d; cbn; auto. Qed.

Lemma occurs_comma_int (n : Z) : occurs "," (decimal n) = false.
Proof.
  unfold decimal, NilZero.string_of_int, NilZero.string_of_uint.
  destruct (Z.to_int n) as [d | d]; destruct d; cbn;
    auto using occurs_comma_digits.
Qed.

Lemma decimal_inj (n m : Z) : decimal n = decimal m -> n = m.
Proof.
  assert (Hparse : forall k,
    NilZero.int_of_string (decimal k) = Some (Z.to_int k)).
  { intros k. apply NilZero.isi; destruct k; cbn; try discriminate;
      intros [= Hnil]; exact (DecimalPos.Unsigned.to_uint_nonnil _ Hnil). }
  intros Htext.
  assert (Hint : Some (Z.to_int n) = Some (Z.to_int m)).
  { rewrite <- !Hparse, Htext. reflexivity. }
  injection Hint as Hint.
  rewrite <- (DecimalZ.of_to n), <- (DecimalZ.of_to m), Hint. reflexivity.
Qed.

(** Two texts that end at the first [c] are equal up to it and after it. *)
Lemma split_at_first (c : ascii) (a a' rest rest' : string) :
  occurs c a = false -> occurs c a' = false ->
  a ++ String c rest = a' ++ String c rest' ->
  a = a' /\ rest = rest'.
Proof.
  revert a'. induction a as [| b a IH]; intros [| b' a']; cbn.
  - intros _ _ [= ->]. auto.
  - intros _ Hfree [= <- _]. rewrite Ascii.eqb_refl in Hfree. discriminate.
  - intros Hfree _ [= -> _]. rewrite Ascii.eqb_refl in Hfree. discriminate.
  - intros [_ Ha]%orb_false_iff [_ Ha']%orb_false_iff [= -> Htail].
    destruct (IH a' Ha Ha' Htail) as [-> ->]. auto.
Qed.

(** With integer coordinates the info text tells the tile: two sets of
    keyword arguments with the same info bind [x], [y] and [z] to the same
    integers. *)
Theorem post_render_info_tells_tile (kwargs kwargs' : gmap string pyval)
    (x y z x' y' z' : Z) :
  kwargs !! "x" = Some (PyInt x) -> kwargs !! "y" = Some (PyInt y) ->
  kwargs !! "z" = Some (PyInt z) ->
  kwargs' !! "x" = Some (PyInt x') -> kwargs' !! "y" = Some (PyInt y') ->
  kwargs' !! "z" = Some (PyInt z') ->
  post_render_info kwargs = post_render_info kwargs' ->
  x = x' /\ y = y' /\ z = z'.
Proof.
  intros Hx Hy Hz Hx' Hy' Hz'.
  rewrite (post_render_info_returns _ _ _ _ _ _ _ Hx Hy Hz eq_refl eq_refl eq_refl),
    (post_render_info_returns _ _ _ _ _ _ _ Hx' Hy' Hz' eq_refl eq_refl eq_refl).
  intros [= Hinfo].
  apply split_at_first in Hinfo as [Hxs Hinfo]; try apply occurs_comma_int.
  injection Hinfo as Hinfo.
  apply split_at_first in Hinfo as [Hys Hinfo]; try apply occurs_comma_int.
  injection Hinfo as Hzs.
  auto using decimal_inj.
Qed.

Lemma post_render_info_tells_tile_witness :
  post_render_info (tile_properties 3 5 2)
  = post_render_info (<["format" := PyStr "png"]> (tile_properties 3 5 2))
  /\ (5 = 5 /\ 2 = 2 /\ 3 = 3).
Proof.
  assert (Hinfo : post_render_info (tile_properties 3 5 2)
    = post_render_info (<["format" := PyStr "png"]> (tile_properties 3 5 2))).
  { vm_compute. reflexivity. }
  split; [exact Hinfo |].
  apply (post_render_info_tells_tile (tile_properties 3 5 2)
           (<["format" := PyStr "png"]> (tile_properties 3 5 2)));
    (vm_compute; reflexivity) || exact Hinfo.
Defined.

(** ** The box of [load_data_func] *)

(** [load_data_func] makes one library call, the indexer on [world] with
    the slice of [y_range] first and the slice of [x_range] second, and
    returns or raises what this call does.  With an indexer that keeps its
    contract, what it returns is the bounding-box filter of [world] for the
    box that spans [y_range] in x and [x_range] in y. *)
Theorem load_data_func_filters_transposed_box `{LibraryObjects}
    (lib : library geoE) (world : GeoDataFrame) (x0 x1 y0 y1 : float) :
  run lib (load_data_func world (x0, x1) (y0, y1))
  = lib _ (Cx world (Slice y0 y1, Slice x0 x1))
  /\ trace lib (load_data_func world (x0, x1) (y0, y1))
     = [existT _ (Cx world (Slice y0 y1, Slice x0 x1))]
  /\ (cx_contract lib ->
      forall rows,
        run lib (load_data_func world (x0, x1) (y0, y1)) = Returns rows ->
        rows = rows_in_box world (Box y0 x0 y1 x1)).
Proof.
  assert (Hrun : run lib (load_data_func world (x0, x1) (y0, y1))
                 = lib _ (Cx world (Slice y0 y1, Slice x0 x1))).
  { unfold load_data_func. apply run_call. }
  split; [exact Hrun |]. split.
  - unfold load_data_func. cbn.
    destruct (lib GeoDataFrame (Cx world (Slice y0 y1, Slice x0 x1))); reflexivity.
  - intros Hcx rows. rewrite Hrun. apply Hcx.
Qed.

Lemma load_data_func_filters_transposed_box_witness :
  (cx_contract Demo.geopandas
   /\ run Demo.geopandas (load_data_func Demo.world (-20e6, 20e6)%float (0, 20e6)%float)
      = Returns [("Perth", (12897000, -3757000)%float)])
  /\ [("Perth", (12897000, -3757000)%float)]
     = rows_in_box Demo.world (Box 0 (-20e6) 20e6 20e6).
Proof.
  split; [split; [exact demo_cx_contract | vm_compute; reflexivity] |].
  destruct (load_data_func_filters_transposed_box Demo.geopandas Demo.world
              (-20e6) 20e6 0 20e6) as (_ & _ & Hbox).
  apply Hbox; [exact demo_cx_contract | vm_compute; reflexivity].
Defined.

(** ** The zoom levels of a range *)

(** [range(start, stop)] runs through the integers from [start] up to but
    not including [stop], each once, and through none when [stop <= start]. *)
Theorem range_items_spec (r : py_range) :
  (forall zoom, In zoom (range_items r) <-> range_start r <= zoom < range_stop r)
  /\ List.NoDup (range_items r)
  /\ (range_items r = [] <-> range_stop r <= range_start r).
Proof.
  unfold range_items. split; [| split].
  - intros zoom. rewrite in_map_iff. split.
    + intros (i & <- & Hi%in_seq). lia.
    + intros Hzoom. exists (Z.to_nat (zoom - range_start r)).
      rewrite in_seq. lia.
  - apply Finite.Injective_map_NoDup; [| apply seq_NoDup].
    intros i j Hij. lia.
  - destruct (Z.to_nat (range_stop r - range_start r)) as [| n] eqn:Hn; cbn.
    + split; [lia | reflexivity].
    + split; [discriminate | lia].
Qed.

(** ** From the cells to the callbacks *)

Section CellsToCallbacks.
Context `{LibraryObjects}.
Variable lib : library nbE.

Ltac next_call :=
  match goal with
  | |- context [lib ?X ?c] => destruct (lib X c) eqn:?; cbn; try discriminate
  end.

Lemma load_world_returns (world : GeoDataFrame) :
  run lib load_world = Returns world ->
  exists path raw projected continent mask,
    lib _ (DatasetsGetPath "naturalearth_lowres") = Returns path
    /\ lib _ (ReadFile path) = Returns raw
    /\ lib _ (ToCrs raw "EPSG:3857") = Returns projected
    /\ lib _ (Column projected "continent") = Returns continent
    /\ lib _ (NotEqual continent (PyStr "Antarctica")) = Returns mask
    /\ lib _ (Getitem projected mask) = Returns world.
Proof.
  unfold load_world. cbn. do 7 next_call. intros [= <-]. eauto 12.
Qed.

(** The frame [load_data_func] filters when [render_tiles] calls it is the
    world read from the dataset, projected to EPSG:3857 and without the rows
    of Antarctica: the callback handed over under [load_data_func] calls
    the indexer on that frame, whatever the library and the ranges, and
    with an indexer that keeps its contract what it returns is the
    bounding-box filter of that frame. *)
Theorem notebook_tiles_projected_world :
  run lib notebook = Returns tt ->
  exists path raw projected continent mask world extent levels kwargs load,
    (lib _ (DatasetsGetPath "naturalearth_lowres") = Returns path
     /\ lib _ (ReadFile path) = Returns raw
     /\ lib _ (ToCrs raw "EPSG:3857") = Returns projected
     /\ lib _ (Column projected "continent") = Returns continent
     /\ lib _ (NotEqual continent (PyStr "Antarctica")) = Returns mask
     /\ lib _ (Getitem projected mask) = Returns world)
    /\ omap render_tiles_call (trace lib notebook) = [(extent, levels, kwargs)]
    /\ kwarg "load_data_func" kwargs = Some (LoadFn load)
    /\ (forall (geopandas : library geoE) (x0 x1 y0 y1 : float),
          run geopandas (load (x0, x1) (y0, y1))
          = geopandas _ (Cx world (Slice y0 y1, Slice x0 x1)))
    /\ (forall (geopandas : library geoE) (x0 x1 y0 y1 : float) rows,
          cx_contract geopandas ->
          run geopandas (load (x0, x1) (y0, y1)) = Returns rows ->
          rows = rows_in_box world (Box y0 x0 y1 x1)).
Proof.
  intros (world & Hworld & Hcalls & _)%notebook_calls.
  destruct (load_world_returns world Hworld)
    as (path & raw & projected & continent & mask & Hloaded).
  exists path, raw, projected, continent, mask, world, full_extent_of_data,
    (Range 0 8), (render_tiles_kwargs world), (load_data_func world).
  split; [exact Hloaded |]. split; [exact Hcalls |]. split; [reflexivity |].
  split.
  - intros geopandas x0 x1 y0 y1. unfold load_data_func. apply run_call.
  - intros geopandas x0 x1 y0 y1 rows Hcx.
    unfold load_data_func. rewrite run_call. apply Hcx.
Qed.

(** The preview never fails in [int]: once the cell runs to its end it has
    made the 800 by 800 figure over -20000000..20000000 in x and in y, set
    the three display attributes on it, added the tile source to it without
    parent tiles, and shown that figure; it has called nothing else. *)
Theorem preview_builds_one_figure :
  run lib preview = Returns tt ->
  exists (p : Figure) (source : TileSource),
    trace lib preview
    = [ existT _ OutputNotebook;
        existT _ (NewFigure 800 800 (-20000000, 20000000) (-20000000, 20000000)
                    "pan,wheel_zoom,reset");
        existT _ (SetAttr p ["axis"; "visible"] (PyBool false));
        existT _ (SetAttr p ["background_fill_color"] (PyStr "black"));
        existT _ (SetAttr p ["grid"; "grid_line_alpha"] (PyInt 0));
        existT _ (WMTSTileSource "http://localhost:10000/{Z}/{X}/{Y}.png");
        existT _ (AddTile p source false);
        existT _ (Show p) ].
Proof.
  unfold preview, full_extent_of_data. rewrite py_int_lo, py_int_hi. cbn.
  next_call. next_call. do 3 next_call.
  next_call. do 2 next_call.
  intros _. repeat match goal with u : unit |- _ => destruct u end.
  eexists _, _. reflexivity.
Qed.
End CellsToCallbacks.

Lemma notebook_tiles_projected_world_witness :
  run Demo.session notebook = Returns tt
  /\ exists world kwargs load,
       Demo.session _ (Getitem Demo.world (map (fun _ => true) Demo.world))
       = Returns world
       /\ kwarg "load_data_func" kwargs = Some (LoadFn load)
       /\ run Demo.geopandas (load (0, 20e6)%float (-20e6, 0)%float)
          = Demo.geopandas _ (Cx world (Slice (-20e6) 0, Slice 0 20e6)).
Proof.
  split; [reflexivity |].
  destruct (notebook_tiles_projected_world Demo.session eq_refl)
    as (path & raw & projected & continent & mask & world & extent & levels
        & kwargs & load & Hloaded & _ & Hload & Hcall & _).
  exists world, kwargs, load.
  split; [| split; [exact Hload | apply Hcall]].
  destruct Hloaded as ([= <-] & [= <-] & [= <-] & [= <-] & [= <-] & Hworld).
  exact Hworld.
Defined.

Lemma preview_builds_one_figure_witness :
  run Demo.session preview = Returns tt
  /\ length (trace Demo.session preview) = 8%nat.
Proof.
  split; [reflexivity |].
  destruct (preview_builds_one_figure Demo.session eq_refl) as (p & source & ->).
  reflexivity.
Defined.

(** ** The outcomes of the hook *)

(** [post_render_func] has three kinds of outcome: it returns the image
    it was given; or it raises the [KeyError] of a key among [x], [y] and
    [z] that its keyword arguments do not bind; or, with the three bound, it
    raises what the formatting of one of their values raises.  It returns
    no other image and raises nothing of its own making. *)
Theorem post_render_func_outcomes {I : Type} (img : I)
    (kwargs : gmap string pyval) :
  post_render_func img kwargs = Returns img
  \/ (exists key,
        In key ["x"; "y"; "z"] /\ kwargs !! key = None
        /\ post_render_func img kwargs = Raises (KeyError key))
  \/ (exists key v e,
        In key ["x"; "y"; "z"] /\ kwargs !! key = Some v
        /\ py_format v = Raises e
        /\ is_Some (kwargs !! "x") /\ is_Some (kwargs !! "y")
        /\ is_Some (kwargs !! "z")
        /\ post_render_func img kwargs = Raises e).
Proof.
  destruct (kwargs !! "x") as [x |] eqn:Hx.
  2: { right; left. exists "x". cbn. repeat split; auto.
       unfold post_render_func, post_render_info, getitem. rewrite Hx.
       reflexivity. }
  destruct (kwargs !! "y") as [y |] eqn:Hy.
  2: { right; left. exists "y". cbn. repeat split; auto.
       unfold post_render_func, post_render_info, getitem. rewrite Hx, Hy.
       reflexivity. }
  destruct (kwargs !! "z") as [z |] eqn:Hz.
  2: { right; left. exists "z". cbn. repeat split; auto.
       unfold post_render_func, post_render_info, getitem. rewrite Hx, Hy, Hz.
       reflexivity. }
  rewrite (post_render_func_bound img kwargs x y z Hx Hy Hz).
  destruct (py_format x) as [x_text | e] eqn:Hxt; cbn.
  2: { right; right. exists "x", x, e. cbn. eauto 12. }
  destruct (py_format y) as [y_text | e] eqn:Hyt; cbn.
  2: { right; right. exists "y", y, e. cbn. eauto 12. }
  destruct (py_format z) as [z_text | e] eqn:Hzt; cbn.
  2: { right; right. exists "z", z, e. cbn. eauto 12. }
  left. reflexivity.
Qed.
